(** * farm/views.py: access control and query scoping of the Farm, Motor
    and Valve endpoints

    A shallow embedding of [farm/views.py] (Django REST framework views)
    and of the parts of Django and of the REST framework's generic views
    that the views run through: querysets, [get_object], and the create,
    retrieve, update and destroy handlers.

    Tables are finite maps from primary key to row, a queryset is the
    sub-map a [filter] selects, and a handler is a function from the
    request and the store to a response and the store afterwards. *)

From Stdlib Require Import Ascii String ZArith.
From stdpp Require Import base strings gmap list fin_maps.

Set Warnings "-register-all".
Local Open Scope string_scope.
Local Open Scope Z_scope.

(** An exception that no handler catches. *)
Inductive exception : Type :=
| IntegrityError
| ValueError
| TypeError
| AssertionError.

(** ** Python values: what [request.data] holds *)

Module Py.

(** The values a decoded JSON body or a form post carries.  Numbers are
    integers; a body with a fractional number is outside this model. *)
Inductive value : Type :=
| None_ : value
| Bool (b : bool) : value
| Int (n : Z) : value
| Str (s : string) : value
| List (l : list value) : value
| Dict (d : list (string * value)) : value.

(** [bool(v)], the test an [if v:] makes. *)
Definition truthy (v : value) : bool :=
  match v with
  | None_ => false
  | Bool b => b
  | Int n => negb (Z.eqb n 0)
  | Str s => negb (String.eqb s "")
  | List l => match l with [] => false | _ => true end
  | Dict d => match d with [] => false | _ => true end
  end.

(** [d.get(k)]: the value under [k], [None] when the key is absent. *)
Definition get (d : gmap string value) (k : string) : value :=
  default None_ (d !! k).

(** [x in l] on a list of strings. *)
Definition in_ (x : string) (l : list string) : bool :=
  bool_decide (x ∈ l).

(** Decimal digits of a string, most significant first: [Some n] when
    the string is one or more ASCII digits. *)
Definition digit (c : ascii) : option Z :=
  let n := Z.of_N (N_of_ascii c) in
  if Z.leb 48 n && Z.leb n 57 then Some (n - 48) else None.

Fixpoint digits (acc : Z) (s : string) : option Z :=
  match s with
  | EmptyString => Some acc
  | String c s' =>
      match digit c with
      | Some d => digits (10 * acc + d) s'
      | None => None
      end
  end.

Definition decimal (s : string) : option Z :=
  match s with
  | EmptyString => None
  | _ => digits 0 s
  end.

(** [int(v)] as the store applies it to a value given for an integer
    column: an integer is itself, a bool is 0 or 1, a string is read
    as a decimal literal with an optional sign.  (Python also accepts
    surrounding blanks and underscores between digits; such spellings
    are reported here as the error.)  Any other value is a [TypeError]. *)
Definition int (v : value) : exception + Z :=
  match v with
  | Int n => inr n
  | Bool b => inr (if b then 1 else 0)
  | Str (String "-" s) => from_option (inr ∘ Z.opp) (inl ValueError) (decimal s)
  | Str (String "+" s) => from_option inr (inl ValueError) (decimal s)
  | Str s => from_option inr (inl ValueError) (decimal s)
  | _ => inl TypeError
  end.

End Py.

(** ** The data model *)

(** The caller the identity provider attaches to the request:
    [request.user], with its primary key and its [role]. *)
Record User : Type := { user_pk : Z; role : string }.

(** Modelled from the spec: [farm/models.py] is not part of the source
    at hand.  A Farm references one User, a Motor one Farm, a Valve one
    Motor; the other columns are opaque.  The views name the Farm's
    reference [owner] (lines 23, 43, 56-62, 79) and [user] (lines 98-137);
    both denote this one column. *)
Record Farm : Type := { owner_id : Z; farm_fields : string }.
Record Motor : Type := { farm_id : Z; motor_fields : string }.
Record Valve : Type := { motor_id : Z; valve_fields : string }.

(** The store: the primary keys of the users, and one table per model,
    keyed by primary key. *)
Record DB : Type := {
  auth_user : gset Z;
  farms : gmap Z Farm;
  motors : gmap Z Motor;
  valves : gmap Z Valve
}.

(** A model instance: a row together with its primary key. *)
Definition instance (Row : Type) : Type := (Z * Row)%type.

(** What a serializer has validated from the payload: the parent
    reference when the payload gave one the serializer accepts, and the
    other columns. *)
Record validated_data : Type := { vd_parent : option Z; vd_fields : string }.

(** The keyword arguments [perform_create] hands to [serializer.save]. *)
Inductive save_kwargs : Type :=
| no_kwargs : save_kwargs                       (* serializer.save() *)
| kw_owner (u : User) : save_kwargs             (* serializer.save(owner=u) *)
| kw_owner_id (v : Py.value) : save_kwargs.     (* serializer.save(owner_id=v) *)

(** The next primary key the store hands out: one more than the largest
    key in the table. *)
Definition next_pk {Row : Type} (t : gmap Z Row) : Z :=
  1 + foldr Z.max 0 (map_to_list t).*1.

(** ** Models: what the views and the generic handlers ask of a table *)

(** One instance per model class: its table in the store
    ([Model.objects.all()]), the write of a table back, the foreign-key
    constraint of a row, the row the model's constructor builds from
    the validated data and the keyword arguments, the assignment of
    validated fields to an existing row, and [instance.delete()]. *)
Class Model (Row : Type) : Type := {
  objects : DB → gmap Z Row;
  store : gmap Z Row → DB → DB;
  parent_exists : DB → Row → bool;
  build : save_kwargs → validated_data → exception + Row;
  assign : validated_data → Row → Row;
  instance_delete : Z → DB → DB
}.

(** [Farm(...)]: a keyword argument of [save] overrides the validated
    field of the same column; [owner=u] stores [u]'s key, [owner_id=v]
    stores [v] as the column converts it.  With no owner at all the
    column is NULL, which the store refuses. *)
Definition Farm_build (kw : save_kwargs) (vd : validated_data) : exception + Farm :=
  match kw with
  | no_kwargs =>
      match vd_parent vd with
      | Some o => inr {| owner_id := o; farm_fields := vd_fields vd |}
      | None => inl IntegrityError
      end
  | kw_owner u => inr {| owner_id := user_pk u; farm_fields := vd_fields vd |}
  | kw_owner_id Py.None_ => inl IntegrityError
  | kw_owner_id v =>
      match Py.int v with
      | inr o => inr {| owner_id := o; farm_fields := vd_fields vd |}
      | inl e => inl e
      end
  end.

(** Modelled from the spec: the referential action of [models.py], which
    is not part of the source at hand, is the cascade the spec assumes:
    deleting a Farm deletes its Motors and their Valves, deleting a Motor
    deletes its Valves. *)
Definition Farm_delete (pk : Z) (db : DB) : DB :=
  {| auth_user := auth_user db;
     farms := delete pk (farms db);
     motors := filter (λ m : Z * Motor, farm_id m.2 ≠ pk) (motors db);
     valves := filter (λ v : Z * Valve,
                 farm_id <$> motors db !! motor_id v.2 ≠ Some pk) (valves db) |}.

Definition Motor_delete (pk : Z) (db : DB) : DB :=
  {| auth_user := auth_user db;
     farms := farms db;
     motors := delete pk (motors db);
     valves := filter (λ v : Z * Valve, motor_id v.2 ≠ pk) (valves db) |}.

Definition Valve_delete (pk : Z) (db : DB) : DB :=
  {| auth_user := auth_user db;
     farms := farms db;
     motors := motors db;
     valves := delete pk (valves db) |}.

#[export] Instance Farm_model : Model Farm := {|
  objects := farms;
  store t db := {| auth_user := auth_user db; farms := t;
                   motors := motors db; valves := valves db |};
  parent_exists db f := bool_decide (owner_id f ∈ auth_user db);
  build := Farm_build;
  assign vd f := {| owner_id := default (owner_id f) (vd_parent vd);
                    farm_fields := vd_fields vd |};
  instance_delete := Farm_delete
|}.

(** [Motor(...)] and [Valve(...)] have no [owner] column: such a keyword
    argument is a [TypeError]. *)
#[export] Instance Motor_model : Model Motor := {|
  objects := motors;
  store t db := {| auth_user := auth_user db; farms := farms db;
                   motors := t; valves := valves db |};
  parent_exists db m := bool_decide (is_Some (farms db !! farm_id m));
  build kw vd :=
    match kw, vd_parent vd with
    | no_kwargs, Some f => inr {| farm_id := f; motor_fields := vd_fields vd |}
    | no_kwargs, None => inl IntegrityError
    | _, _ => inl TypeError
    end;
  assign vd m := {| farm_id := default (farm_id m) (vd_parent vd);
                    motor_fields := vd_fields vd |};
  instance_delete := Motor_delete
|}.

#[export] Instance Valve_model : Model Valve := {|
  objects := valves;
  store t db := {| auth_user := auth_user db; farms := farms db;
                   motors := motors db; valves := t |};
  parent_exists db v := bool_decide (is_Some (motors db !! motor_id v));
  build kw vd :=
    match kw, vd_parent vd with
    | no_kwargs, Some m => inr {| motor_id := m; valve_fields := vd_fields vd |}
    | no_kwargs, None => inl IntegrityError
    | _, _ => inl TypeError
    end;
  assign vd v := {| motor_id := default (motor_id v) (vd_parent vd);
                    valve_fields := vd_fields vd |};
  instance_delete := Valve_delete
|}.

(** ** Requests and responses *)

(** One request as a view sees it: the authenticated caller
    ([request.user]), the parameters captured from the path
    ([self.kwargs]) and the decoded payload ([request.data]).
    Authentication is the identity provider's: every request here carries
    a caller. *)
Record Request : Type := {
  user : User;
  kwargs : gmap string Z;
  data : gmap string Py.value
}.

Inductive Response (Row : Type) : Type :=
| HTTP_200_OK (body : instance Row)
| HTTP_200_OK_list (body : gmap Z Row)
| HTTP_201_CREATED (body : instance Row)
| HTTP_204_NO_CONTENT
| HTTP_400_BAD_REQUEST
| HTTP_403_FORBIDDEN
| HTTP_404_NOT_FOUND
| HTTP_500 (e : exception).

Arguments HTTP_200_OK {Row} body.
Arguments HTTP_200_OK_list {Row} body.
Arguments HTTP_201_CREATED {Row} body.
Arguments HTTP_204_NO_CONTENT {Row}.
Arguments HTTP_400_BAD_REQUEST {Row}.
Arguments HTTP_403_FORBIDDEN {Row}.
Arguments HTTP_404_NOT_FOUND {Row}.
Arguments HTTP_500 {Row} e.

(** ** rest_framework.permissions *)

Module permissions.

Record BasePermission (Row : Type) : Type := {
  has_permission : Request → bool;
  has_object_permission : Request → instance Row → bool
}.

Arguments has_permission {Row} _ _.
Arguments has_object_permission {Row} _ _ _.

(** Every request of this model carries an authenticated caller, so
    [IsAuthenticated] grants; it inherits the object-level default. *)
Definition IsAuthenticated {Row : Type} : BasePermission Row :=
  {| has_permission := λ _, true;
     has_object_permission := λ _ _, true |}.

End permissions.

(** ** rest_framework.generics *)

Module generics.

(** A view class: what [views.py] sets or overrides.  [perform_create] is
    [None] where the class does not override it. *)
Record GenericAPIView (Row : Type) : Type := {
  permission_classes : list (permissions.BasePermission Row);
  get_queryset : Request → DB → gmap Z Row;
  perform_create : option (Request → save_kwargs)
}.

Arguments permission_classes {Row} _.
Arguments get_queryset {Row} _ _ _.
Arguments perform_create {Row} _.

Section handlers.

Context {Row : Type} `{!Model Row} (view : GenericAPIView Row).

Definition check_permissions (request : Request) : bool :=
  forallb (λ p, permissions.has_permission p request) (permission_classes view).

Definition check_object_permissions (request : Request) (obj : instance Row) : bool :=
  forallb (λ p, permissions.has_object_permission p request obj)
          (permission_classes view).

(** [get_object]: [get_object_or_404] on the view's queryset under the
    [pk] of the path, then the object-level permissions. *)
Definition get_object (request : Request) (db : DB) : Response Row + instance Row :=
  match kwargs request !! "pk" with
  | None => inl (HTTP_500 AssertionError)
  | Some pk =>
      match get_queryset view request db !! pk with
      | None => inl HTTP_404_NOT_FOUND
      | Some row =>
          if check_object_permissions request (pk, row)
          then inr (pk, row)
          else inl HTTP_403_FORBIDDEN
      end
  end.

(** [CreateModelMixin.perform_create]: [serializer.save()]. *)
Definition CreateModelMixin_perform_create (request : Request) : save_kwargs :=
  no_kwargs.

(** The [perform_create] a call on the view reaches: the class's own, or
    the mixin's. *)
Definition resolved_perform_create : Request → save_kwargs :=
  default CreateModelMixin_perform_create (perform_create view).

(** [serializer.save(kwargs)] of a serializer without instance: build
    the row, insert it under a new primary key. *)
Definition save_new (kw : save_kwargs) (vd : validated_data) (db : DB)
  : exception + (instance Row * DB) :=
  match build kw vd with
  | inl e => inl e
  | inr row =>
      if parent_exists db row
      then let pk := next_pk (objects (Row := Row) db) in
           inr ((pk, row), store (<[pk := row]> (objects db)) db)
      else inl IntegrityError
  end.

(** [ListModelMixin.list]. *)
Definition list_ (request : Request) (db : DB) : Response Row * DB :=
  if check_permissions request
  then (HTTP_200_OK_list (get_queryset view request db), db)
  else (HTTP_403_FORBIDDEN, db).

(** [CreateModelMixin.create].  [serializer] is what [is_valid] leaves:
    [None] when validation fails. *)
Definition create (request : Request) (serializer : option validated_data) (db : DB)
  : Response Row * DB :=
  if check_permissions request then
    match serializer with
    | None => (HTTP_400_BAD_REQUEST, db)
    | Some vd =>
        match save_new (resolved_perform_create request) vd db with
        | inl e => (HTTP_500 e, db)
        | inr (obj, db') => (HTTP_201_CREATED obj, db')
        end
    end
  else (HTTP_403_FORBIDDEN, db).

(** [RetrieveModelMixin.retrieve]. *)
Definition retrieve (request : Request) (db : DB) : Response Row * DB :=
  if check_permissions request then
    match get_object request db with
    | inl r => (r, db)
    | inr obj => (HTTP_200_OK obj, db)
    end
  else (HTTP_403_FORBIDDEN, db).

(** [UpdateModelMixin.update]: the object first, then validation, then
    [serializer.save()] on the instance. *)
Definition update (request : Request) (serializer : option validated_data) (db : DB)
  : Response Row * DB :=
  if check_permissions request then
    match get_object request db with
    | inl r => (r, db)
    | inr (pk, row) =>
        match serializer with
        | None => (HTTP_400_BAD_REQUEST, db)
        | Some vd =>
            let row' := assign vd row in
            if parent_exists db row'
            then (HTTP_200_OK (pk, row'), store (<[pk := row']> (objects db)) db)
            else (HTTP_500 IntegrityError, db)
        end
    end
  else (HTTP_403_FORBIDDEN, db).

(** [DestroyModelMixin.destroy]. *)
Definition destroy (request : Request) (db : DB) : Response Row * DB :=
  if check_permissions request then
    match get_object request db with
    | inl r => (r, db)
    | inr (pk, _) => (HTTP_204_NO_CONTENT, instance_delete (Row := Row) pk db)
    end
  else (HTTP_403_FORBIDDEN, db).

End handlers.

End generics.

(** ** farm/views.py *)

(** Lines 10-23.  [obj.owner == request.user] compares two User
    instances, which are equal when their primary keys are. *)
Module IsAdminOrManagerOrOwner.

Definition has_object_permission (request : Request) (obj : instance Farm) : bool :=
  if Py.in_ (role (user request)) ["admin"; "manager"] then true
  else bool_decide (owner_id obj.2 = user_pk (user request)).

Definition cls : permissions.BasePermission Farm :=
  {| permissions.has_permission := λ _, true;
     permissions.has_object_permission := has_object_permission |}.

End IsAdminOrManagerOrOwner.

(** Lines 28-79: the first [FarmListCreateView] and [FarmDetailView]. *)
Module First.

Module FarmListCreateView.

Definition get_queryset (request : Request) (db : DB) : gmap Z Farm :=
  let user := user request in
  if Py.in_ (role user) ["admin"; "manager"] then objects db
  else filter (λ f : instance Farm, owner_id f.2 = user_pk user) (objects db).

Definition perform_create (request : Request) : save_kwargs :=
  let user := user request in
  if Py.in_ (role user) ["admin"; "manager"] then
    let owner_id := Py.get (data request) "owner" in
    if Py.truthy owner_id then kw_owner_id owner_id
    else kw_owner user
  else kw_owner user.

Definition cls : generics.GenericAPIView Farm :=
  {| generics.permission_classes :=
       [permissions.IsAuthenticated; IsAdminOrManagerOrOwner.cls];
     generics.get_queryset := get_queryset;
     generics.perform_create := Some perform_create |}.

End FarmListCreateView.

Module FarmDetailView.

Definition get_queryset (request : Request) (db : DB) : gmap Z Farm :=
  let user := user request in
  if Py.in_ (role user) ["admin"; "manager"] then objects db
  else filter (λ f : instance Farm, owner_id f.2 = user_pk user) (objects db).

Definition cls : generics.GenericAPIView Farm :=
  {| generics.permission_classes :=
       [permissions.IsAuthenticated; IsAdminOrManagerOrOwner.cls];
     generics.get_queryset := get_queryset;
     generics.perform_create := None |}.

End FarmDetailView.

End First.

(** Lines 93-105: the second [FarmListCreateView] and [FarmDetailView]. *)
Module Second.

Module FarmListCreateView.

Definition get_queryset (request : Request) (db : DB) : gmap Z Farm :=
  filter (λ f : instance Farm, owner_id f.2 = user_pk (user request)) (objects db).

Definition cls : generics.GenericAPIView Farm :=
  {| generics.permission_classes := [permissions.IsAuthenticated];
     generics.get_queryset := get_queryset;
     generics.perform_create := None |}.

End FarmListCreateView.

Module FarmDetailView.

Definition get_queryset (request : Request) (db : DB) : gmap Z Farm :=
  filter (λ f : instance Farm, owner_id f.2 = user_pk (user request)) (objects db).

Definition cls : generics.GenericAPIView Farm :=
  {| generics.permission_classes := [permissions.IsAuthenticated];
     generics.get_queryset := get_queryset;
     generics.perform_create := None |}.

End FarmDetailView.

End Second.

(** Lines 107-137.  [farm__user] and [motor__farm__user] follow the
    foreign keys through the parent tables: a row whose parent is missing
    matches nothing.  [self.kwargs.get] of an absent parameter is [None],
    which equals no row's reference. *)
Module MotorListCreateView.

Definition get_queryset (request : Request) (db : DB) : gmap Z Motor :=
  let farm_id_ := kwargs request !! "farm_id" in
  filter (λ m : instance Motor,
            Some (farm_id m.2) = farm_id_ ∧
            owner_id <$> farms db !! farm_id m.2 = Some (user_pk (user request)))
         (objects db).

Definition cls : generics.GenericAPIView Motor :=
  {| generics.permission_classes := [permissions.IsAuthenticated];
     generics.get_queryset := get_queryset;
     generics.perform_create := None |}.

End MotorListCreateView.

Module MotorDetailView.

Definition get_queryset (request : Request) (db : DB) : gmap Z Motor :=
  let farm_id_ := kwargs request !! "farm_id" in
  filter (λ m : instance Motor,
            Some (farm_id m.2) = farm_id_ ∧
            owner_id <$> farms db !! farm_id m.2 = Some (user_pk (user request)))
         (objects db).

Definition cls : generics.GenericAPIView Motor :=
  {| generics.permission_classes := [permissions.IsAuthenticated];
     generics.get_queryset := get_queryset;
     generics.perform_create := None |}.

End MotorDetailView.

Module ValveListCreateView.

Definition get_queryset (request : Request) (db : DB) : gmap Z Valve :=
  let motor_id_ := kwargs request !! "motor_id" in
  filter (λ v : instance Valve,
            Some (motor_id v.2) = motor_id_ ∧
            owner_id <$> (motors db !! motor_id v.2 ≫= λ m, farms db !! farm_id m)
              = Some (user_pk (user request)))
         (objects db).

Definition cls : generics.GenericAPIView Valve :=
  {| generics.permission_classes := [permissions.IsAuthenticated];
     generics.get_queryset := get_queryset;
     generics.perform_create := None |}.

End ValveListCreateView.

Module ValveDetailView.

Definition get_queryset (request : Request) (db : DB) : gmap Z Valve :=
  let motor_id_ := kwargs request !! "motor_id" in
  filter (λ v : instance Valve,
            Some (motor_id v.2) = motor_id_ ∧
            owner_id <$> (motors db !! motor_id v.2 ≫= λ m, farms db !! farm_id m)
              = Some (user_pk (user request)))
         (objects db).

Definition cls : generics.GenericAPIView Valve :=
  {| generics.permission_classes := [permissions.IsAuthenticated];
     generics.get_queryset := get_queryset;
     generics.perform_create := None |}.

End ValveDetailView.

(** ** The module as loaded *)

(** What a name of the module is bound to. *)
Inductive binding : Type :=
| permission_class (p : permissions.BasePermission Farm)
| Farm_view (v : generics.GenericAPIView Farm)
| Motor_view (v : generics.GenericAPIView Motor)
| Valve_view (v : generics.GenericAPIView Valve)
| page (template : string).

(** The [class] and [def] statements of [views.py], in the order the
    interpreter executes them. *)
Definition views_py : list (string * binding) :=
  [ ("IsAdminOrManagerOrOwner", permission_class IsAdminOrManagerOrOwner.cls);
    ("FarmListCreateView", Farm_view First.FarmListCreateView.cls);
    ("FarmDetailView", Farm_view First.FarmDetailView.cls);
    ("create_farm_page", page "create_farm.html");
    ("FarmListCreateView", Farm_view Second.FarmListCreateView.cls);
    ("FarmDetailView", Farm_view Second.FarmDetailView.cls);
    ("MotorListCreateView", Motor_view MotorListCreateView.cls);
    ("MotorDetailView", Motor_view MotorDetailView.cls);
    ("ValveListCreateView", Valve_view ValveListCreateView.cls);
    ("ValveDetailView", Valve_view ValveDetailView.cls);
    ("farm_management", page "farmCRUD.html") ].

(** Executing a statement binds its name, replacing what the name was
    bound to. *)
Definition exec (ns : gmap string binding) (stmt : string * binding)
  : gmap string binding :=
  <[stmt.1 := stmt.2]> ns.

(** The namespace of the module once it is loaded, and the attribute
    lookup [views.name] a URL configuration makes on it. *)
Definition namespace : gmap string binding := foldl exec ∅ views_py.

Definition getattr (name : string) : option binding := namespace !! name.

(** ** A small store and a few callers, for the worked cases below *)

Definition north : Farm := {| owner_id := 2; farm_fields := "north" |}.
Definition pump : Motor := {| farm_id := 10; motor_fields := "pump" |}.
Definition drip : Valve := {| motor_id := 20; valve_fields := "drip" |}.

(** Users 1, 2 and 3; farm 10 of user 2, its motor 20 and valve 30. *)
Definition db0 : DB :=
  {| auth_user := {[1; 2; 3]};
     farms := {[10 := north]};
     motors := {[20 := pump]};
     valves := {[30 := drip]} |}.

Definition caller (pk : Z) (r : string) : User := {| user_pk := pk; role := r |}.

Definition request_of (u : User) (kw : list (string * Z)) (d : list (string * Py.value))
  : Request :=
  {| user := u; kwargs := list_to_map kw; data := list_to_map d |}.

(** An admin listing farms; a user and a manager posting a farm, the
    first naming user 2 as owner, the second naming none, and an admin
    posting one with owner 0; user 1 posting a motor under farm 10 and a
    valve under motor 20, fetching farm 10, and, as an admin, deleting
    motor 20. *)
Definition admin_lists : Request := request_of (caller 1 "admin") [] [].
Definition user_posts_farm : Request :=
  request_of (caller 1 "user") [] [("owner", Py.Int 2)].
Definition manager_posts_farm : Request := request_of (caller 1 "manager") [] [].
Definition admin_posts_farm_owner_0 : Request :=
  request_of (caller 1 "admin") [] [("owner", Py.Int 0)].
Definition user_posts_motor : Request :=
  request_of (caller 1 "user") [("farm_id", 10)] [].
Definition user_posts_valve : Request :=
  request_of (caller 1 "user") [("motor_id", 20)] [].
Definition user_gets_farm : Request := request_of (caller 1 "user") [("pk", 10)] [].
Definition admin_deletes_motor : Request :=
  request_of (caller 1 "admin") [("farm_id", 10); ("pk", 20)] [].

Definition south (o : Z) : Farm := {| owner_id := o; farm_fields := "south" |}.
Definition rogue_motor : Motor := {| farm_id := 10; motor_fields := "rogue" |}.
Definition rogue_valve : Valve := {| motor_id := 20; valve_fields := "rogue" |}.

(** The request with the [owner] field taken out of its payload. *)
Definition without_owner (request : Request) : Request :=
  {| user := user request; kwargs := kwargs request;
     data := delete "owner" (data request) |}.

(** The request with the path parameter [name] set to [v]. *)
Definition with_kwarg (name : string) (v : Z) (request : Request) : Request :=
  {| user := user request; kwargs := <[name := v]> (kwargs request);
     data := data request |}.

(** A second store: beside user 2's farm 10, motor 20 and valve 30,
    user 1 has farm 11 with motor 21 and valve 31. *)
Definition east : Farm := {| owner_id := 1; farm_fields := "east" |}.
Definition well : Motor := {| farm_id := 11; motor_fields := "well" |}.
Definition tap : Valve := {| motor_id := 21; valve_fields := "tap" |}.

Definition db1 : DB :=
  {| auth_user := {[1; 2; 3]};
     farms := <[11 := east]> {[10 := north]};
     motors := <[21 := well]> {[20 := pump]};
     valves := <[31 := tap]> {[30 := drip]} |}.

(** An admin posting a farm for user 3 and for a user 9 the store does
    not know; user 1 and user 2 at the paths of user 1's farm, motor and
    valve; a request with no path parameter. *)
Definition admin_posts_farm_owner_3 : Request :=
  request_of (caller 1 "admin") [] [("owner", Py.Int 3)].
Definition admin_posts_farm_owner_9 : Request :=
  request_of (caller 1 "admin") [] [("owner", Py.Int 9)].
Definition user_1_gets_farm_11 : Request :=
  request_of (caller 1 "user") [("pk", 11)] [].
Definition user_1_gets_motor_21 : Request :=
  request_of (caller 1 "user") [("farm_id", 11); ("pk", 21)] [].
Definition user_1_lists_valves_21 : Request :=
  request_of (caller 1 "user") [("motor_id", 21)] [].
Definition user_2_lists : Request := request_of (caller 2 "user") [] [].
Definition user_1_lists : Request := request_of (caller 1 "user") [] [].

(** * Properties *)

(** ** Helper lemmas *)

Lemma in_admin_manager (r : string) :
  Py.in_ r ["admin"; "manager"] = true ↔ r = "admin" ∨ r = "manager".
Proof.
  unfold Py.in_. rewrite bool_decide_eq_true, !elem_of_cons, elem_of_nil. tauto.
Qed.

Lemma not_in_admin_manager (r : string) :
  Py.in_ r ["admin"; "manager"] = false ↔ ¬ (r = "admin" ∨ r = "manager").
Proof.
  rewrite <- in_admin_manager. destruct (Py.in_ r _); split; congruence.
Qed.

Lemma le_foldr_max (k : Z) (l : list Z) : k ∈ l → k ≤ foldr Z.max 0 l.
Proof.
  induction l as [|x l IH]; intros Hin.
  - by apply elem_of_nil in Hin.
  - apply elem_of_cons in Hin as [->|Hin]; simpl; [lia|].
    specialize (IH Hin). lia.
Qed.

(** The key [next_pk] hands out is not in the table. *)
Lemma next_pk_fresh {Row : Type} (t : gmap Z Row) : t !! next_pk t = None.
Proof.
  destruct (t !! next_pk t) as [row|] eqn:Hl; [exfalso|done].
  assert (next_pk t ∈ (map_to_list t).*1) as Hin.
  { apply list_elem_of_fmap. exists (next_pk t, row). split; [done|].
    by apply elem_of_map_to_list. }
  apply le_foldr_max in Hin. unfold next_pk in Hin at 1. lia.
Qed.

(** The scope of each queryset, row by row. *)
Lemma First_list_scope (request : Request) (db : DB) (pk : Z) (F : Farm) :
  First.FarmListCreateView.get_queryset request db !! pk = Some F ↔
  farms db !! pk = Some F ∧
  ((role (user request) = "admin" ∨ role (user request) = "manager") ∨
   owner_id F = user_pk (user request)).
Proof.
  unfold First.FarmListCreateView.get_queryset.
  destruct (Py.in_ _ _) eqn:Hr; simpl.
  - apply in_admin_manager in Hr. tauto.
  - apply not_in_admin_manager in Hr. rewrite map_lookup_filter_Some. simpl. tauto.
Qed.

Lemma First_detail_scope (request : Request) (db : DB) (pk : Z) (F : Farm) :
  First.FarmDetailView.get_queryset request db !! pk = Some F ↔
  farms db !! pk = Some F ∧
  ((role (user request) = "admin" ∨ role (user request) = "manager") ∨
   owner_id F = user_pk (user request)).
Proof. apply First_list_scope. Qed.

Lemma Second_list_scope (request : Request) (db : DB) (pk : Z) (F : Farm) :
  Second.FarmListCreateView.get_queryset request db !! pk = Some F ↔
  farms db !! pk = Some F ∧ owner_id F = user_pk (user request).
Proof.
  unfold Second.FarmListCreateView.get_queryset.
  rewrite map_lookup_filter_Some. simpl. tauto.
Qed.

Lemma Second_detail_scope (request : Request) (db : DB) (pk : Z) (F : Farm) :
  Second.FarmDetailView.get_queryset request db !! pk = Some F ↔
  farms db !! pk = Some F ∧ owner_id F = user_pk (user request).
Proof. apply Second_list_scope. Qed.

Lemma Motor_scope (request : Request) (db : DB) (pk : Z) (M : Motor) :
  MotorListCreateView.get_queryset request db !! pk = Some M ↔
  motors db !! pk = Some M ∧
  kwargs request !! "farm_id" = Some (farm_id M) ∧
  ∃ F, farms db !! farm_id M = Some F ∧ owner_id F = user_pk (user request).
Proof.
  unfold MotorListCreateView.get_queryset.
  rewrite map_lookup_filter_Some. simpl.
  rewrite fmap_Some. split.
  - intros (? & ? & F & ? & ?). eauto 10.
  - intros (? & ? & F & ? & ?). eauto 10.
Qed.

Lemma Valve_scope (request : Request) (db : DB) (pk : Z) (V : Valve) :
  ValveListCreateView.get_queryset request db !! pk = Some V ↔
  valves db !! pk = Some V ∧
  kwargs request !! "motor_id" = Some (motor_id V) ∧
  ∃ M F, motors db !! motor_id V = Some M ∧ farms db !! farm_id M = Some F ∧
         owner_id F = user_pk (user request).
Proof.
  unfold ValveListCreateView.get_queryset.
  rewrite map_lookup_filter_Some. simpl.
  rewrite fmap_Some. setoid_rewrite bind_Some. split.
  - intros (? & ? & F & (M & ? & ?) & ?). eauto 10.
  - intros (? & ? & M & F & ? & ? & ?). eauto 10.
Qed.

(** The detail handlers of any view whose view-level permissions grant:
    a key outside the queryset is not found, the store is left as it
    was; a key inside it, on a view without object-level refusals, is
    the object retrieved. *)
Section detail.

Context {Row : Type} `{!Model Row} (view : generics.GenericAPIView Row).
Hypothesis granted : ∀ request, generics.check_permissions view request = true.

Lemma get_object_outside (request : Request) (db : DB) (pk : Z) :
  kwargs request !! "pk" = Some pk →
  generics.get_queryset view request db !! pk = None →
  generics.get_object view request db = inl HTTP_404_NOT_FOUND.
Proof. intros Hpk Hq. unfold generics.get_object. by rewrite Hpk, Hq. Qed.

Lemma detail_outside (request : Request) (db : DB) (pk : Z) :
  kwargs request !! "pk" = Some pk →
  generics.get_queryset view request db !! pk = None →
  ∀ serializer,
    generics.retrieve view request db = (HTTP_404_NOT_FOUND, db) ∧
    generics.update view request serializer db = (HTTP_404_NOT_FOUND, db) ∧
    generics.destroy view request db = (HTTP_404_NOT_FOUND, db).
Proof.
  intros Hpk Hq s.
  unfold generics.retrieve, generics.update, generics.destroy.
  by rewrite granted, (get_object_outside _ _ _ Hpk Hq).
Qed.

Lemma get_object_resolves (request : Request) (db : DB) (pk : Z) :
  (∀ obj, generics.check_object_permissions view request obj = true) →
  kwargs request !! "pk" = Some pk →
  generics.get_object view request db =
    match generics.get_queryset view request db !! pk with
    | Some row => inr (pk, row)
    | None => inl HTTP_404_NOT_FOUND
    end.
Proof.
  intros Hobj Hpk. unfold generics.get_object. rewrite Hpk.
  destruct (generics.get_queryset view request db !! pk); [|done].
  by rewrite Hobj.
Qed.

End detail.

(** The first [perform_create], branch by branch. *)
Lemma First_perform_create_regular (request : Request) :
  ¬ (role (user request) = "admin" ∨ role (user request) = "manager") →
  First.FarmListCreateView.perform_create request = kw_owner (user request).
Proof.
  intros Hr. apply not_in_admin_manager in Hr.
  unfold First.FarmListCreateView.perform_create. by rewrite Hr.
Qed.

Lemma First_perform_create_privileged (request : Request) :
  role (user request) = "admin" ∨ role (user request) = "manager" →
  First.FarmListCreateView.perform_create request =
    if Py.truthy (Py.get (data request) "owner")
    then kw_owner_id (Py.get (data request) "owner")
    else kw_owner (user request).
Proof.
  intros Hr. apply in_admin_manager in Hr.
  unfold First.FarmListCreateView.perform_create. by rewrite Hr.
Qed.

(** Under the first definition a caller without a privileged role owns
    the Farm it creates, whatever the payload and the serializer say. *)
Lemma First_create_regular (request : Request) (vd : validated_data) (db : DB) :
  ¬ (role (user request) = "admin" ∨ role (user request) = "manager") →
  user_pk (user request) ∈ auth_user db →
  generics.create First.FarmListCreateView.cls request (Some vd) db =
    let F := {| owner_id := user_pk (user request); farm_fields := vd_fields vd |} in
    (HTTP_201_CREATED (next_pk (farms db), F),
     store (<[next_pk (farms db) := F]> (farms db)) db).
Proof.
  intros Hr Hu. unfold generics.create, generics.save_new. simpl.
  unfold generics.resolved_perform_create. simpl.
  rewrite (First_perform_create_regular _ Hr). simpl.
  by rewrite bool_decide_eq_true_2.
Qed.

(** Under the first definition a privileged caller who names an owner
    the store knows creates the Farm of that owner. *)
Lemma First_create_privileged_reference
    (request : Request) (vd : validated_data) (db : DB) (X : Z) :
  role (user request) = "admin" ∨ role (user request) = "manager" →
  Py.truthy (Py.get (data request) "owner") = true →
  Py.int (Py.get (data request) "owner") = inr X →
  X ∈ auth_user db →
  generics.create First.FarmListCreateView.cls request (Some vd) db =
    let F := {| owner_id := X; farm_fields := vd_fields vd |} in
    (HTTP_201_CREATED (next_pk (farms db), F),
     store (<[next_pk (farms db) := F]> (farms db)) db).
Proof.
  intros Hr Ht Hi Hu. unfold generics.create, generics.save_new. simpl.
  unfold generics.resolved_perform_create. simpl.
  rewrite (First_perform_create_privileged _ Hr), Ht. simpl.
  destruct (Py.get (data request) "owner") eqn:Hv; try discriminate;
    unfold Farm_build; rewrite Hi; simpl; by rewrite bool_decide_eq_true_2.
Qed.

(** Under the first definition a privileged caller whose payload names
    no owner, or a falsy one, owns the Farm it creates. *)
Lemma First_create_privileged_default
    (request : Request) (vd : validated_data) (db : DB) :
  role (user request) = "admin" ∨ role (user request) = "manager" →
  Py.truthy (Py.get (data request) "owner") = false →
  user_pk (user request) ∈ auth_user db →
  generics.create First.FarmListCreateView.cls request (Some vd) db =
    let F := {| owner_id := user_pk (user request); farm_fields := vd_fields vd |} in
    (HTTP_201_CREATED (next_pk (farms db), F),
     store (<[next_pk (farms db) := F]> (farms db)) db).
Proof.
  intros Hr Ht Hu. unfold generics.create, generics.save_new. simpl.
  unfold generics.resolved_perform_create. simpl.
  rewrite (First_perform_create_privileged _ Hr), Ht. simpl.
  by rewrite bool_decide_eq_true_2.
Qed.

(** A view that inherits [perform_create] creates what the serializer
    validated: neither the caller nor the path enters. *)
Lemma inherited_create_ignores_request {Row : Type} `{!Model Row}
    (view : generics.GenericAPIView Row) (request request' : Request)
    (serializer : option validated_data) (db : DB) :
  generics.perform_create view = None →
  (∀ r, generics.check_permissions view r = true) →
  generics.create view request serializer db =
  generics.create view request' serializer db.
Proof.
  intros Hp Hg. unfold generics.create, generics.resolved_perform_create.
  by rewrite !Hg, Hp.
Qed.

(** ** The claims *)

(** C1.  The claim: the Farm list of a caller holds a Farm exactly when
    the caller's role is admin or manager or the caller owns the Farm.
    The name [FarmListCreateView] is bound to the second definition, and
    its list for an admin who owns nothing is empty although the store
    holds a Farm; the first definition lists that Farm. *)
Theorem C1_farm_list_of_admin_at_loaded_view :
  getattr "FarmListCreateView" = Some (Farm_view Second.FarmListCreateView.cls) ∧
  role (user admin_lists) = "admin" ∧
  farms db0 !! 10 = Some north ∧
  generics.list_ Second.FarmListCreateView.cls admin_lists db0
    = (HTTP_200_OK_list ∅, db0) ∧
  generics.list_ First.FarmListCreateView.cls admin_lists db0
    = (HTTP_200_OK_list (farms db0), db0).
Proof. repeat apply conj; reflexivity. Qed.

(** C2.  The claim: a Farm created by a caller without a privileged role
    is owned by the caller, whatever the payload's [owner].  The loaded
    view inherits [perform_create], so the Farm gets the owner the
    serializer validated from the payload (here user 2, not the caller,
    user 1), and none at all, an integrity error, when the serializer
    validated none; the first definition stores the caller. *)
Theorem C2_farm_create_by_regular_user_at_loaded_view :
  getattr "FarmListCreateView" = Some (Farm_view Second.FarmListCreateView.cls) ∧
  role (user user_posts_farm) = "user" ∧
  user_pk (user user_posts_farm) = 1 ∧
  data user_posts_farm !! "owner" = Some (Py.Int 2) ∧
  generics.create Second.FarmListCreateView.cls user_posts_farm
      (Some {| vd_parent := Some 2; vd_fields := "south" |}) db0
    = (HTTP_201_CREATED (11, south 2), store (<[11 := south 2]> (farms db0)) db0) ∧
  generics.create Second.FarmListCreateView.cls user_posts_farm
      (Some {| vd_parent := None; vd_fields := "south" |}) db0
    = (HTTP_500 IntegrityError, db0) ∧
  generics.create First.FarmListCreateView.cls user_posts_farm
      (Some {| vd_parent := Some 2; vd_fields := "south" |}) db0
    = (HTTP_201_CREATED (11, south 1), store (<[11 := south 1]> (farms db0)) db0).
Proof. repeat apply conj; reflexivity. Qed.

(** C3.  The claim: a Farm created by an admin or manager is owned by
    the user the payload's [owner] names, and by the caller when the
    payload names none.  At the loaded view a manager's create without
    [owner] stores no Farm: the serializer validated no owner, the view
    supplies none, and the store refuses the row.  The first definition
    stores the caller. *)
Theorem C3_farm_create_by_manager_at_loaded_view :
  getattr "FarmListCreateView" = Some (Farm_view Second.FarmListCreateView.cls) ∧
  role (user manager_posts_farm) = "manager" ∧
  data manager_posts_farm !! "owner" = None ∧
  generics.create Second.FarmListCreateView.cls manager_posts_farm
      (Some {| vd_parent := None; vd_fields := "south" |}) db0
    = (HTTP_500 IntegrityError, db0) ∧
  generics.create First.FarmListCreateView.cls manager_posts_farm
      (Some {| vd_parent := None; vd_fields := "south" |}) db0
    = (HTTP_201_CREATED (11, south 1), store (<[11 := south 1]> (farms db0)) db0).
Proof. repeat apply conj; reflexivity. Qed.

(** C4.  The claim: a Motor or Valve create under a parent the caller
    does not own is rejected and stores nothing.  User 1 posts a Motor
    under farm 10 and a Valve under motor 20, both of user 2: each create
    answers 201 and the row is in the store. *)
Theorem C4_create_under_foreign_parent_is_accepted :
  user_pk (user user_posts_motor) = 1 ∧
  user_pk (user user_posts_valve) = 1 ∧
  (owner_id <$> farms db0 !! 10) = Some 2 ∧
  (owner_id <$> (motors db0 !! 20 ≫= λ m, farms db0 !! farm_id m)) = Some 2 ∧
  generics.create MotorListCreateView.cls user_posts_motor
      (Some {| vd_parent := Some 10; vd_fields := "rogue" |}) db0
    = (HTTP_201_CREATED (21, rogue_motor),
       store (<[21 := rogue_motor]> (motors db0)) db0) ∧
  generics.create ValveListCreateView.cls user_posts_valve
      (Some {| vd_parent := Some 20; vd_fields := "rogue" |}) db0
    = (HTTP_201_CREATED (31, rogue_valve),
       store (<[31 := rogue_valve]> (valves db0)) db0).
Proof. repeat apply conj; reflexivity. Qed.

(** C5.  For every caller, of any role, a Motor is in the caller's
    Motor list under [farm_id] exactly when it is a Motor of the store,
    its farm is [farm_id] and that Farm's owner is the caller; a Valve is
    in the caller's Valve list under [motor_id] exactly when it is a
    Valve of the store, its motor is [motor_id] and the owner of that
    Motor's Farm is the caller.  The role is not consulted. *)
Theorem C5_motor_and_valve_scope (request : Request) (db : DB) :
  (∀ pk M,
     MotorListCreateView.get_queryset request db !! pk = Some M ↔
     motors db !! pk = Some M ∧
     kwargs request !! "farm_id" = Some (farm_id M) ∧
     ∃ F, farms db !! farm_id M = Some F ∧ owner_id F = user_pk (user request)) ∧
  (∀ pk V,
     ValveListCreateView.get_queryset request db !! pk = Some V ↔
     valves db !! pk = Some V ∧
     kwargs request !! "motor_id" = Some (motor_id V) ∧
     ∃ M F, motors db !! motor_id V = Some M ∧ farms db !! farm_id M = Some F ∧
            owner_id F = user_pk (user request)) ∧
  generics.list_ MotorListCreateView.cls request db
    = (HTTP_200_OK_list (MotorListCreateView.get_queryset request db), db) ∧
  generics.list_ ValveListCreateView.cls request db
    = (HTTP_200_OK_list (ValveListCreateView.get_queryset request db), db).
Proof.
  split; [|split; [|split]]; try reflexivity.
  - intros pk M. apply Motor_scope.
  - intros pk V. apply Valve_scope.
Qed.

(** C6.  [has_object_permission] allows exactly when the caller's role is
    admin or manager, or the Farm's owner is the caller: it allows every
    privileged caller on every Farm, and any other caller on the Farms it
    owns and no others.  It is a function of the request and the object
    to a boolean: it reads no store and writes none. *)
Theorem C6_has_object_permission (request : Request) (obj : instance Farm) :
  IsAdminOrManagerOrOwner.has_object_permission request obj = true ↔
  (role (user request) = "admin" ∨ role (user request) = "manager") ∨
  owner_id obj.2 = user_pk (user request).
Proof.
  unfold IsAdminOrManagerOrOwner.has_object_permission.
  destruct (Py.in_ _ _) eqn:Hr.
  - apply in_admin_manager in Hr. tauto.
  - apply not_in_admin_manager in Hr. rewrite bool_decide_eq_true. tauto.
Qed.



(** C8.  The names [FarmListCreateView] and [FarmDetailView] are bound
    to the second definitions.  For every caller, whatever its role, the
    queryset of either holds a Farm exactly when the Farm is in the store
    and its user is the caller; neither class overrides [perform_create],
    so a create calls [serializer.save()] with no owner; and neither
    carries an object-level permission that refuses. *)
Theorem C8_loaded_farm_views_are_the_second_definitions :
  ∃ L D,
    getattr "FarmListCreateView" = Some (Farm_view L) ∧
    getattr "FarmDetailView" = Some (Farm_view D) ∧
    (∀ request db pk F,
       generics.get_queryset L request db !! pk = Some F ↔
       farms db !! pk = Some F ∧ owner_id F = user_pk (user request)) ∧
    (∀ request db pk F,
       generics.get_queryset D request db !! pk = Some F ↔
       farms db !! pk = Some F ∧ owner_id F = user_pk (user request)) ∧
    generics.perform_create L = None ∧
    (∀ request, generics.resolved_perform_create L request = no_kwargs) ∧
    (∀ request obj, generics.check_object_permissions L request obj = true) ∧
    (∀ request obj, generics.check_object_permissions D request obj = true).
Proof.
  exists Second.FarmListCreateView.cls, Second.FarmDetailView.cls.
  repeat apply conj; try reflexivity.
  - intros. apply Second_list_scope.
  - intros. apply Second_detail_scope.
Qed.

(** C9.  In the first [perform_create], for a caller with role admin or
    manager whose payload has an [owner] that is falsy, the save is
    [serializer.save(owner=user)]: the same call, and the same create, as
    for the payload without the field.  The falsy value is not handed
    on: whatever the serializer validated, the create of a caller the
    store knows answers 201 and stores, under a key the table did not
    have, a Farm whose owner is the caller, and changes nothing else. *)
Theorem C9_falsy_owner_is_the_caller (request : Request) (v : Py.value) :
  role (user request) = "admin" ∨ role (user request) = "manager" →
  data request !! "owner" = Some v →
  Py.truthy v = false →
  First.FarmListCreateView.perform_create request = kw_owner (user request) ∧
  First.FarmListCreateView.perform_create (without_owner request)
    = kw_owner (user request) ∧
  (∀ serializer db,
     generics.create First.FarmListCreateView.cls request serializer db =
     generics.create First.FarmListCreateView.cls (without_owner request)
       serializer db) ∧
  First.FarmListCreateView.perform_create request ≠ kw_owner_id v ∧
  (∀ vd db,
     user_pk (user request) ∈ auth_user db →
     ∃ pk,
       farms db !! pk = None ∧
       generics.create First.FarmListCreateView.cls request (Some vd) db =
         (HTTP_201_CREATED
            (pk, {| owner_id := user_pk (user request);
                    farm_fields := vd_fields vd |}),
          {| auth_user := auth_user db;
             farms := <[pk := {| owner_id := user_pk (user request);
                                 farm_fields := vd_fields vd |}]> (farms db);
             motors := motors db;
             valves := valves db |})).
Proof.
  intros Hr Hd Hv.
  assert (Py.truthy (Py.get (data request) "owner") = false) as Hfalsy.
  { unfold Py.get. rewrite Hd. exact Hv. }
  assert (First.FarmListCreateView.perform_create request = kw_owner (user request))
    as H1.
  { rewrite (First_perform_create_privileged _ Hr). by rewrite Hfalsy. }
  assert (First.FarmListCreateView.perform_create (without_owner request)
          = kw_owner (user request)) as H2.
  { rewrite (First_perform_create_privileged (without_owner request) Hr).
    unfold Py.get. simpl. by rewrite lookup_delete_eq. }
  repeat apply conj; [done|done| | |].
  - intros s db. unfold generics.create, generics.resolved_perform_create. simpl.
    by rewrite H1, H2.
  - rewrite H1. discriminate.
  - intros vd db Hu. exists (next_pk (farms db)). split; [apply next_pk_fresh|].
    by rewrite (First_create_privileged_default request vd db Hr Hfalsy Hu).
Qed.

Lemma C9_witness :
  (role (user admin_posts_farm_owner_0) = "admin" ∨
   role (user admin_posts_farm_owner_0) = "manager") ∧
  data admin_posts_farm_owner_0 !! "owner" = Some (Py.Int 0) ∧
  Py.truthy (Py.Int 0) = false ∧
  user_pk (user admin_posts_farm_owner_0) ∈ auth_user db0 ∧
  First.FarmListCreateView.perform_create admin_posts_farm_owner_0
    = kw_owner (caller 1 "admin") ∧
  ∃ pk,
    farms db0 !! pk = None ∧
    generics.create First.FarmListCreateView.cls admin_posts_farm_owner_0
        (Some {| vd_parent := Some 2; vd_fields := "south" |}) db0 =
      (HTTP_201_CREATED (pk, south 1),
       {| auth_user := auth_user db0; farms := <[pk := south 1]> (farms db0);
          motors := motors db0; valves := valves db0 |}).
Proof.
  assert (user_pk (user admin_posts_farm_owner_0) ∈ auth_user db0) as Hu.
  { by vm_compute. }
  destruct (C9_falsy_owner_is_the_caller admin_posts_farm_owner_0 (Py.Int 0)
              (or_introl eq_refl) eq_refl eq_refl) as (Hsave & _ & _ & _ & Hstored).
  split; [left; reflexivity|]. split; [reflexivity|]. split; [reflexivity|].
  split; [exact Hu|]. split; [exact Hsave|].
  exact (Hstored {| vd_parent := Some 2; vd_fields := "south" |} db0 Hu).
Defined.

(** C10.  For every caller, of any role, retrieve, update and delete of
    a Motor whose Farm's user is not the caller, and of a Valve whose
    Motor's Farm's user is not the caller, answer 404 and leave the store
    as it was. *)
Theorem C10_foreign_motor_and_valve_not_found
    (request : Request) (db : DB) (pk : Z) :
  kwargs request !! "pk" = Some pk →
  (∀ M, motors db !! pk = Some M →
     (∀ F, farms db !! farm_id M = Some F → owner_id F ≠ user_pk (user request)) →
     ∀ serializer,
       generics.retrieve MotorDetailView.cls request db = (HTTP_404_NOT_FOUND, db) ∧
       generics.update MotorDetailView.cls request serializer db
         = (HTTP_404_NOT_FOUND, db) ∧
       generics.destroy MotorDetailView.cls request db = (HTTP_404_NOT_FOUND, db)) ∧
  (∀ V, valves db !! pk = Some V →
     (∀ M F, motors db !! motor_id V = Some M → farms db !! farm_id M = Some F →
             owner_id F ≠ user_pk (user request)) →
     ∀ serializer,
       generics.retrieve ValveDetailView.cls request db = (HTTP_404_NOT_FOUND, db) ∧
       generics.update ValveDetailView.cls request serializer db
         = (HTTP_404_NOT_FOUND, db) ∧
       generics.destroy ValveDetailView.cls request db = (HTTP_404_NOT_FOUND, db)).
Proof.
  intros Hpk. split.
  - intros M HM Hforeign.
    apply (detail_outside MotorDetailView.cls (λ _, eq_refl) request db pk Hpk).
    destruct (generics.get_queryset MotorDetailView.cls request db !! pk)
      as [M'|] eqn:Hq; [exfalso|done].
    apply Motor_scope in Hq as (HM' & _ & F & HF & Ho).
    assert (M' = M) as -> by congruence. by apply (Hforeign F).
  - intros V HV Hforeign.
    apply (detail_outside ValveDetailView.cls (λ _, eq_refl) request db pk Hpk).
    destruct (generics.get_queryset ValveDetailView.cls request db !! pk)
      as [V'|] eqn:Hq; [exfalso|done].
    apply Valve_scope in Hq as (HV' & _ & M & F & HM & HF & Ho).
    assert (V' = V) as -> by congruence. by apply (Hforeign M F).
Qed.

Lemma C10_witness :
  kwargs admin_deletes_motor !! "pk" = Some 20 ∧
  role (user admin_deletes_motor) = "admin" ∧
  motors db0 !! 20 = Some pump ∧
  generics.destroy MotorDetailView.cls admin_deletes_motor db0
    = (HTTP_404_NOT_FOUND, db0).
Proof.
  split; [reflexivity|]. split; [reflexivity|]. split; [reflexivity|].
  destruct (C10_foreign_motor_and_valve_not_found admin_deletes_motor
              db0 20 eq_refl) as [Hmotor _].
  apply (Hmotor pump eq_refl); [|exact None].
  intros F HF. vm_compute in HF. injection HF as <-. discriminate.
Defined.

(** ** Further properties of the views *)

Lemma permitted_iff (request : Request) (pk : Z) (F : Farm) :
  IsAdminOrManagerOrOwner.has_object_permission request (pk, F) = true ↔
  (role (user request) = "admin" ∨ role (user request) = "manager") ∨
  owner_id F = user_pk (user request).
Proof.
  unfold IsAdminOrManagerOrOwner.has_object_permission. simpl.
  destruct (Py.in_ _ _) eqn:Hr.
  - apply in_admin_manager in Hr. tauto.
  - apply not_in_admin_manager in Hr. rewrite bool_decide_eq_true. tauto.
Qed.

(** X1.  The first [FarmListCreateView] and the first [FarmDetailView]
    scope alike: the queryset of either holds a Farm exactly when the
    Farm is in the store and the caller's role is admin or manager or the
    caller owns it. *)
Theorem X1_first_farm_scope (request : Request) (db : DB) (pk : Z) (F : Farm) :
  (generics.get_queryset First.FarmListCreateView.cls request db !! pk = Some F ↔
   farms db !! pk = Some F ∧
   ((role (user request) = "admin" ∨ role (user request) = "manager") ∨
    owner_id F = user_pk (user request))) ∧
  (generics.get_queryset First.FarmDetailView.cls request db !! pk = Some F ↔
   farms db !! pk = Some F ∧
   ((role (user request) = "admin" ∨ role (user request) = "manager") ∨
    owner_id F = user_pk (user request))).
Proof. split; [apply First_list_scope|apply First_detail_scope]. Qed.

(** X2.  Under the first [FarmListCreateView] a caller that is neither
    admin nor manager, once the serializer has validated, creates a Farm
    it owns, under a key the table did not have: the payload and the
    owner the serializer validated do not enter. *)
Theorem X2_first_create_regular_caller_owns
    (request : Request) (vd : validated_data) (db : DB) :
  ¬ (role (user request) = "admin" ∨ role (user request) = "manager") →
  user_pk (user request) ∈ auth_user db →
  ∃ pk,
    farms db !! pk = None ∧
    generics.create First.FarmListCreateView.cls request (Some vd) db =
      (HTTP_201_CREATED
         (pk, {| owner_id := user_pk (user request); farm_fields := vd_fields vd |}),
       {| auth_user := auth_user db;
          farms := <[pk := {| owner_id := user_pk (user request);
                              farm_fields := vd_fields vd |}]> (farms db);
          motors := motors db;
          valves := valves db |}).
Proof.
  intros Hr Hu. exists (next_pk (farms db)). split; [apply next_pk_fresh|].
  by rewrite (First_create_regular _ _ _ Hr Hu).
Qed.

Lemma X2_witness :
  ¬ (role (user user_posts_farm) = "admin" ∨ role (user user_posts_farm) = "manager") ∧
  user_pk (user user_posts_farm) ∈ auth_user db0 ∧
  ∃ pk,
    farms db0 !! pk = None ∧
    generics.create First.FarmListCreateView.cls user_posts_farm
        (Some {| vd_parent := Some 2; vd_fields := "south" |}) db0 =
      (HTTP_201_CREATED (pk, south 1),
       {| auth_user := auth_user db0; farms := <[pk := south 1]> (farms db0);
          motors := motors db0; valves := valves db0 |}).
Proof.
  assert (¬ (role (user user_posts_farm) = "admin" ∨
             role (user user_posts_farm) = "manager")) as Hr.
  { intros [H|H]; discriminate H. }
  assert (user_pk (user user_posts_farm) ∈ auth_user db0) as Hu.
  { by vm_compute. }
  split; [exact Hr|]. split; [exact Hu|].
  exact (X2_first_create_regular_caller_owns user_posts_farm
           {| vd_parent := Some 2; vd_fields := "south" |} db0 Hr Hu).
Defined.

(** X3.  Under the first [FarmListCreateView] an admin or manager whose
    payload has a truthy [owner] that converts to the key of a user of
    the store creates that user's Farm, under a key the table did not
    have. *)
Theorem X3_first_create_privileged_names_owner
    (request : Request) (vd : validated_data) (db : DB) (v : Py.value) (X : Z) :
  role (user request) = "admin" ∨ role (user request) = "manager" →
  data request !! "owner" = Some v →
  Py.truthy v = true →
  Py.int v = inr X →
  X ∈ auth_user db →
  ∃ pk,
    farms db !! pk = None ∧
    generics.create First.FarmListCreateView.cls request (Some vd) db =
      (HTTP_201_CREATED (pk, {| owner_id := X; farm_fields := vd_fields vd |}),
       {| auth_user := auth_user db;
          farms := <[pk := {| owner_id := X; farm_fields := vd_fields vd |}]> (farms db);
          motors := motors db;
          valves := valves db |}).
Proof.
  intros Hr Hd Ht Hi Hu. exists (next_pk (farms db)). split; [apply next_pk_fresh|].
  assert (Py.get (data request) "owner" = v) as Hg by (unfold Py.get; by rewrite Hd).
  rewrite (First_create_privileged_reference request vd db X); try done.
  - by rewrite Hg.
  - by rewrite Hg.
Qed.

Lemma X3_witness :
  (role (user admin_posts_farm_owner_3) = "admin" ∨
   role (user admin_posts_farm_owner_3) = "manager") ∧
  data admin_posts_farm_owner_3 !! "owner" = Some (Py.Int 3) ∧
  Py.truthy (Py.Int 3) = true ∧
  Py.int (Py.Int 3) = inr 3 ∧
  3 ∈ auth_user db0 ∧
  ∃ pk,
    farms db0 !! pk = None ∧
    generics.create First.FarmListCreateView.cls admin_posts_farm_owner_3
        (Some {| vd_parent := None; vd_fields := "south" |}) db0 =
      (HTTP_201_CREATED (pk, south 3),
       {| auth_user := auth_user db0; farms := <[pk := south 3]> (farms db0);
          motors := motors db0; valves := valves db0 |}).
Proof.
  assert (3 ∈ auth_user db0) as Hu by (by vm_compute).
  split; [left; reflexivity|]. split; [reflexivity|]. split; [reflexivity|].
  split; [reflexivity|]. split; [exact Hu|].
  exact (X3_first_create_privileged_names_owner admin_posts_farm_owner_3
           {| vd_parent := None; vd_fields := "south" |} db0 (Py.Int 3) 3
           (or_introl eq_refl) eq_refl eq_refl eq_refl Hu).
Defined.

(** X4.  Under the first [FarmListCreateView] an admin or manager whose
    payload has a truthy [owner] that converts to a key no user of the
    store has gets the store's integrity error, and the store is as it
    was: the reference is handed on unchecked. *)
Theorem X4_first_create_privileged_unknown_owner
    (request : Request) (vd : validated_data) (db : DB) (v : Py.value) (X : Z) :
  role (user request) = "admin" ∨ role (user request) = "manager" →
  data request !! "owner" = Some v →
  Py.truthy v = true →
  Py.int v = inr X →
  X ∉ auth_user db →
  generics.create First.FarmListCreateView.cls request (Some vd) db
    = (HTTP_500 IntegrityError, db).
Proof.
  intros Hr Hd Ht Hi Hu.
  assert (Py.get (data request) "owner" = v) as Hg by (unfold Py.get; by rewrite Hd).
  unfold generics.create, generics.save_new, generics.resolved_perform_create. simpl.
  rewrite (First_perform_create_privileged _ Hr), Hg, Ht. simpl.
  destruct v; try discriminate;
    unfold Farm_build; rewrite Hi; simpl; by rewrite bool_decide_eq_false_2.
Qed.

Lemma X4_witness :
  (role (user admin_posts_farm_owner_9) = "admin" ∨
   role (user admin_posts_farm_owner_9) = "manager") ∧
  data admin_posts_farm_owner_9 !! "owner" = Some (Py.Int 9) ∧
  Py.truthy (Py.Int 9) = true ∧
  Py.int (Py.Int 9) = inr 9 ∧
  (9 ∉ auth_user db0) ∧
  generics.create First.FarmListCreateView.cls admin_posts_farm_owner_9
      (Some {| vd_parent := None; vd_fields := "south" |}) db0
    = (HTTP_500 IntegrityError, db0).
Proof.
  assert (9 ∉ auth_user db0) as Hu by (by vm_compute).
  split; [left; reflexivity|]. split; [reflexivity|]. split; [reflexivity|].
  split; [reflexivity|]. split; [exact Hu|].
  exact (X4_first_create_privileged_unknown_owner admin_posts_farm_owner_9
           {| vd_parent := None; vd_fields := "south" |} db0 (Py.Int 9) 9
           (or_introl eq_refl) eq_refl eq_refl eq_refl Hu).
Defined.

(** X5.  The first [perform_create] always saves with an owner: never
    [serializer.save()] bare.  It saves with [owner=u] only for [u] the
    caller, and with [owner_id=v] only for an admin or manager and only
    for [v] the payload's [owner], which is then truthy. *)
Theorem X5_first_perform_create_cases (request : Request) :
  First.FarmListCreateView.perform_create request ≠ no_kwargs ∧
  (∀ u, First.FarmListCreateView.perform_create request = kw_owner u →
        u = user request) ∧
  (∀ v, First.FarmListCreateView.perform_create request = kw_owner_id v →
        (role (user request) = "admin" ∨ role (user request) = "manager") ∧
        data request !! "owner" = Some v ∧
        Py.truthy v = true).
Proof.
  unfold First.FarmListCreateView.perform_create.
  destruct (Py.in_ _ _) eqn:Hr; [|repeat apply conj; intros; congruence].
  apply in_admin_manager in Hr.
  destruct (Py.truthy _) eqn:Ht.
  - repeat apply conj; [discriminate|discriminate|].
    intros v [= <-]. repeat apply conj; [done| |done].
    unfold Py.get in *. by destruct (data request !! "owner").
  - repeat apply conj; intros; congruence.
Qed.

Lemma First_scope_permitted (request : Request) (db : DB) (pk : Z) (F : Farm) :
  First.FarmDetailView.get_queryset request db !! pk = Some F ↔
  farms db !! pk = Some F ∧
  IsAdminOrManagerOrOwner.has_object_permission request (pk, F) = true.
Proof. rewrite First_detail_scope, permitted_iff. tauto. Qed.

(** X6.  The first views list what the permission class allows: a Farm
    is in the queryset of the first [FarmListCreateView], and of the
    first [FarmDetailView], exactly when it is in the store and
    [has_object_permission] allows the caller on it. *)
Theorem X6_first_scope_is_the_permitted_farms
    (request : Request) (db : DB) (pk : Z) (F : Farm) :
  (First.FarmListCreateView.get_queryset request db !! pk = Some F ↔
   farms db !! pk = Some F ∧
   IsAdminOrManagerOrOwner.has_object_permission request (pk, F) = true) ∧
  (First.FarmDetailView.get_queryset request db !! pk = Some F ↔
   farms db !! pk = Some F ∧
   IsAdminOrManagerOrOwner.has_object_permission request (pk, F) = true).
Proof.
  rewrite First_list_scope, First_detail_scope, permitted_iff. tauto.
Qed.

Lemma First_get_object_cases (request : Request) (db : DB) (pk : Z) :
  kwargs request !! "pk" = Some pk →
  generics.get_object First.FarmDetailView.cls request db =
    match farms db !! pk with
    | Some F =>
        if IsAdminOrManagerOrOwner.has_object_permission request (pk, F)
        then inr (pk, F)
        else inl HTTP_404_NOT_FOUND
    | None => inl HTTP_404_NOT_FOUND
    end.
Proof.
  intros Hpk. unfold generics.get_object. rewrite Hpk. simpl.
  destruct (First.FarmDetailView.get_queryset request db !! pk) as [F|] eqn:Hq.
  - apply First_scope_permitted in Hq as [-> Hp].
    unfold generics.check_object_permissions. simpl. by rewrite Hp.
  - destruct (farms db !! pk) as [F|] eqn:HF; [|done].
    destruct (IsAdminOrManagerOrOwner.has_object_permission request (pk, F)) eqn:Hp;
      [|done].
    assert (First.FarmDetailView.get_queryset request db !! pk = Some F) as Hq'
      by (by apply First_scope_permitted).
    congruence.
Qed.

(** X7.  The first [FarmDetailView] never answers 403: its queryset
    holds only Farms the permission class allows, so [get_object] gives
    the Farm under the key when the caller is allowed on it, and 404 when
    the caller is not or the store has no such Farm. *)
Theorem X7_first_detail_never_forbidden (request : Request) (db : DB) (pk : Z) :
  kwargs request !! "pk" = Some pk →
  generics.get_object First.FarmDetailView.cls request db =
    match farms db !! pk with
    | Some F =>
        if IsAdminOrManagerOrOwner.has_object_permission request (pk, F)
        then inr (pk, F)
        else inl HTTP_404_NOT_FOUND
    | None => inl HTTP_404_NOT_FOUND
    end.
Proof. apply First_get_object_cases. Qed.

Lemma X7_witness :
  kwargs user_gets_farm !! "pk" = Some 10 ∧
  farms db0 !! 10 = Some north ∧
  generics.get_object First.FarmDetailView.cls user_gets_farm db0
    = inl HTTP_404_NOT_FOUND.
Proof.
  split; [reflexivity|]. split; [reflexivity|].
  exact (X7_first_detail_never_forbidden user_gets_farm db0 10 eq_refl).
Defined.

(** X10.  Without the path parameter the Motor views see nothing: when
    the path gave no [farm_id], the queryset of [MotorListCreateView] and
    of [MotorDetailView] is empty, for every caller and store. *)
Theorem X10_motor_scope_without_farm_id (request : Request) (db : DB) :
  kwargs request !! "farm_id" = None →
  MotorListCreateView.get_queryset request db = ∅ ∧
  MotorDetailView.get_queryset request db = ∅.
Proof.
  intros Hk. split; apply map_empty; intros pk; apply map_lookup_filter_None;
    right; intros M _ [Hf _]; simpl in Hf; rewrite Hk in Hf; discriminate.
Qed.

Lemma X10_witness :
  kwargs user_2_lists !! "farm_id" = None ∧
  motors db1 !! 20 = Some pump ∧
  (owner_id <$> farms db1 !! farm_id pump) = Some (user_pk (user user_2_lists)) ∧
  MotorListCreateView.get_queryset user_2_lists db1 = ∅.
Proof.
  split; [reflexivity|]. split; [reflexivity|]. split; [reflexivity|].
  exact (proj1 (X10_motor_scope_without_farm_id user_2_lists db1 eq_refl)).
Defined.

(** X11.  Without the path parameter the Valve views see nothing: when
    the path gave no [motor_id], the queryset of [ValveListCreateView]
    and of [ValveDetailView] is empty, for every caller and store. *)
Theorem X11_valve_scope_without_motor_id (request : Request) (db : DB) :
  kwargs request !! "motor_id" = None →
  ValveListCreateView.get_queryset request db = ∅ ∧
  ValveDetailView.get_queryset request db = ∅.
Proof.
  intros Hk. split; apply map_empty; intros pk; apply map_lookup_filter_None;
    right; intros V _ [Hm _]; simpl in Hm; rewrite Hk in Hm; discriminate.
Qed.

Lemma X11_witness :
  kwargs user_2_lists !! "motor_id" = None ∧
  valves db1 !! 30 = Some drip ∧
  ValveListCreateView.get_queryset user_2_lists db1 = ∅.
Proof.
  split; [reflexivity|]. split; [reflexivity|].
  exact (proj1 (X11_valve_scope_without_motor_id user_2_lists db1 eq_refl)).
Defined.

(** X12.  Under the loaded views two callers with different keys share
    nothing: the Farm querysets of the two are disjoint, and so are their
    Motor querysets and their Valve querysets, whatever the roles and the
    path parameters. *)
Theorem X12_loaded_scopes_of_two_callers_are_disjoint
    (request request' : Request) (db : DB) :
  user_pk (user request) ≠ user_pk (user request') →
  Second.FarmListCreateView.get_queryset request db
    ##ₘ Second.FarmListCreateView.get_queryset request' db ∧
  MotorListCreateView.get_queryset request db
    ##ₘ MotorListCreateView.get_queryset request' db ∧
  ValveListCreateView.get_queryset request db
    ##ₘ ValveListCreateView.get_queryset request' db.
Proof.
  intros Hne. repeat apply conj; apply map_disjoint_spec; intros pk x y Hx Hy.
  - apply Second_list_scope in Hx as [Hx Hox].
    apply Second_list_scope in Hy as [Hy Hoy]. congruence.
  - apply Motor_scope in Hx as (Hx & _ & F & HF & Ho).
    apply Motor_scope in Hy as (Hy & _ & F' & HF' & Ho'). congruence.
  - apply Valve_scope in Hx as (Hx & _ & M & F & HM & HF & Ho).
    apply Valve_scope in Hy as (Hy & _ & M' & F' & HM' & HF' & Ho'). congruence.
Qed.

Lemma X12_witness :
  user_pk (user user_1_lists) ≠ user_pk (user user_2_lists) ∧
  Second.FarmListCreateView.get_queryset user_1_lists db1 !! 11 = Some east ∧
  Second.FarmListCreateView.get_queryset user_2_lists db1 !! 10 = Some north ∧
  Second.FarmListCreateView.get_queryset user_1_lists db1
    ##ₘ Second.FarmListCreateView.get_queryset user_2_lists db1.
Proof.
  assert (user_pk (user user_1_lists) ≠ user_pk (user user_2_lists)) as Hne.
  { intros H. discriminate H. }
  split; [exact Hne|]. split; [reflexivity|]. split; [reflexivity|].
  exact (proj1 (X12_loaded_scopes_of_two_callers_are_disjoint
                  user_1_lists user_2_lists db1 Hne)).
Defined.

(** X13.  What a caller can retrieve is what the caller is listed: on
    the loaded Farm, Motor and Valve views, and on the first Farm views,
    retrieve under a key answers 200 with a row exactly when the list
    view's queryset for the same request has that row under the key. *)
Theorem X13_retrieve_what_is_listed (request : Request) (db : DB) (pk : Z) :
  kwargs request !! "pk" = Some pk →
  (∀ F, generics.retrieve Second.FarmDetailView.cls request db
          = (HTTP_200_OK (pk, F), db) ↔
        Second.FarmListCreateView.get_queryset request db !! pk = Some F) ∧
  (∀ M, generics.retrieve MotorDetailView.cls request db
          = (HTTP_200_OK (pk, M), db) ↔
        MotorListCreateView.get_queryset request db !! pk = Some M) ∧
  (∀ V, generics.retrieve ValveDetailView.cls request db
          = (HTTP_200_OK (pk, V), db) ↔
        ValveListCreateView.get_queryset request db !! pk = Some V) ∧
  (∀ F, generics.retrieve First.FarmDetailView.cls request db
          = (HTTP_200_OK (pk, F), db) ↔
        First.FarmListCreateView.get_queryset request db !! pk = Some F).
Proof.
  intros Hpk. repeat apply conj; intros row; unfold generics.retrieve; simpl.
  - rewrite (get_object_resolves Second.FarmDetailView.cls request db pk
               (λ _, eq_refl) Hpk). simpl.
    change (Second.FarmDetailView.get_queryset request db)
      with (Second.FarmListCreateView.get_queryset request db).
    destruct (Second.FarmListCreateView.get_queryset request db !! pk);
      split; congruence.
  - rewrite (get_object_resolves MotorDetailView.cls request db pk
               (λ _, eq_refl) Hpk). simpl.
    change (MotorDetailView.get_queryset request db)
      with (MotorListCreateView.get_queryset request db).
    destruct (MotorListCreateView.get_queryset request db !! pk);
      split; congruence.
  - rewrite (get_object_resolves ValveDetailView.cls request db pk
               (λ _, eq_refl) Hpk). simpl.
    change (ValveDetailView.get_queryset request db)
      with (ValveListCreateView.get_queryset request db).
    destruct (ValveListCreateView.get_queryset request db !! pk);
      split; congruence.
  - rewrite (First_get_object_cases request db pk Hpk).
    change (First.FarmListCreateView.get_queryset request db)
      with (First.FarmDetailView.get_queryset request db).
    rewrite First_scope_permitted.
    destruct (farms db !! pk) as [F|]; [|split; [congruence|intros [? _]; congruence]].
    destruct (IsAdminOrManagerOrOwner.has_object_permission request (pk, F)) eqn:Hp.
    + split; [intros [= <-]; done|intros [[= <-] _]; done].
    + split; [congruence|]. intros [[= <-] Hp']. congruence.
Qed.

Lemma X13_witness :
  kwargs user_1_gets_motor_21 !! "pk" = Some 21 ∧
  MotorListCreateView.get_queryset user_1_gets_motor_21 db1 !! 21 = Some well ∧
  generics.retrieve MotorDetailView.cls user_1_gets_motor_21 db1
    = (HTTP_200_OK (21, well), db1).
Proof.
  split; [reflexivity|]. split; [reflexivity|].
  apply (X13_retrieve_what_is_listed user_1_gets_motor_21 db1 21 eq_refl).
  reflexivity.
Defined.

(** X14.  The scopes nest along the parent chain: a Valve in the
    caller's Valve list has its Motor in the caller's Motor list under
    that Motor's farm, and that Farm in the caller's loaded Farm list. *)
Theorem X14_listed_valve_has_listed_parents
    (request : Request) (db : DB) (pk : Z) (V : Valve) :
  ValveListCreateView.get_queryset request db !! pk = Some V →
  ∃ M F,
    MotorListCreateView.get_queryset
      (with_kwarg "farm_id" (farm_id M) request) db !! motor_id V = Some M ∧
    Second.FarmListCreateView.get_queryset request db !! farm_id M = Some F.
Proof.
  intros Hq. apply Valve_scope in Hq as (HV & _ & M & F & HM & HF & Ho).
  exists M, F. split.
  - apply Motor_scope. split; [done|]. split.
    + simpl. apply lookup_insert_eq.
    + exists F. done.
  - apply Second_list_scope. done.
Qed.

Lemma X14_witness :
  ValveListCreateView.get_queryset user_1_lists_valves_21 db1 !! 31 = Some tap ∧
  ∃ M F,
    MotorListCreateView.get_queryset
      (with_kwarg "farm_id" (farm_id M) user_1_lists_valves_21) db1
      !! motor_id tap = Some M ∧
    Second.FarmListCreateView.get_queryset user_1_lists_valves_21 db1
      !! farm_id M = Some F.
Proof.
  split; [reflexivity|].
  exact (X14_listed_valve_has_listed_parents user_1_lists_valves_21 db1 31 tap
           eq_refl).
Defined.

(** X15.  The loaded list-and-create views inherit [perform_create]:
    what a create answers and stores depends on what the serializer
    validated and on the store, and not on the caller, the path
    parameters or the payload of the request. *)
Theorem X15_loaded_create_ignores_the_request
    (request request' : Request) (serializer : option validated_data) (db : DB) :
  generics.create Second.FarmListCreateView.cls request serializer db
    = generics.create Second.FarmListCreateView.cls request' serializer db ∧
  generics.create MotorListCreateView.cls request serializer db
    = generics.create MotorListCreateView.cls request' serializer db ∧
  generics.create ValveListCreateView.cls request serializer db
    = generics.create ValveListCreateView.cls request' serializer db.
Proof.
  repeat apply conj; by apply inherited_create_ignores_request.
Qed.

(** What a create that answered 201 did. *)
Lemma create_created {Row : Type} `{!Model Row}
    (view : generics.GenericAPIView Row) (request : Request)
    (serializer : option validated_data) (db db' : DB) (obj : instance Row) :
  generics.create view request serializer db = (HTTP_201_CREATED obj, db') →
  ∃ vd row,
    serializer = Some vd ∧
    build (generics.resolved_perform_create view request) vd = inr row ∧
    parent_exists db row = true ∧
    obj = (next_pk (objects (Row := Row) db), row) ∧
    db' = store (<[next_pk (objects (Row := Row) db) := row]> (objects db)) db.
Proof.
  unfold generics.create, generics.save_new.
  destruct (generics.check_permissions view request); [|discriminate].
  destruct serializer as [vd|]; [|discriminate].
  destruct (build _ vd) as [e|row] eqn:Hb; [discriminate|].
  destruct (parent_exists db row) eqn:Hp; [|discriminate].
  intros [= <- <-]. by exists vd, row.
Qed.

(** X16.  Round trip under the first Farm views: the Farm a create
    answered with is the Farm the creator retrieves under the returned
    key, for every caller and payload. *)
Theorem X16_first_create_then_retrieve
    (request : Request) (serializer : option validated_data) (db db' : DB)
    (pk : Z) (F : Farm) :
  generics.create First.FarmListCreateView.cls request serializer db
    = (HTTP_201_CREATED (pk, F), db') →
  generics.retrieve First.FarmDetailView.cls (with_kwarg "pk" pk request) db'
    = (HTTP_200_OK (pk, F), db').
Proof.
  intros Hc. apply create_created in Hc as (vd & row & -> & Hb & _ & [= -> ->] & ->).
  unfold generics.retrieve. simpl generics.check_permissions. cbv iota.
  rewrite (First_get_object_cases _ _ (next_pk (farms db)));
    [|simpl; apply lookup_insert_eq].
  simpl. rewrite lookup_insert_eq.
  assert (IsAdminOrManagerOrOwner.has_object_permission
            (with_kwarg "pk" (next_pk (farms db)) request)
            (next_pk (farms db), row) = true) as ->; [|done].
  apply permitted_iff. simpl.
  destruct (Py.in_ (role (user request)) ["admin"; "manager"]) eqn:Hr.
  - left. by apply in_admin_manager.
  - right. apply not_in_admin_manager in Hr.
    unfold generics.resolved_perform_create in Hb. simpl in Hb.
    rewrite (First_perform_create_regular _ Hr) in Hb. simpl in Hb.
    by injection Hb as <-.
Qed.

Lemma X16_witness :
  generics.create First.FarmListCreateView.cls user_posts_farm
      (Some {| vd_parent := Some 2; vd_fields := "south" |}) db0
    = (HTTP_201_CREATED (11, south 1), store (<[11 := south 1]> (farms db0)) db0) ∧
  generics.retrieve First.FarmDetailView.cls (with_kwarg "pk" 11 user_posts_farm)
      (store (<[11 := south 1]> (farms db0)) db0)
    = (HTTP_200_OK (11, south 1), store (<[11 := south 1]> (farms db0)) db0).
Proof.
  split; [reflexivity|].
  exact (X16_first_create_then_retrieve user_posts_farm
           (Some {| vd_parent := Some 2; vd_fields := "south" |}) db0
           (store (<[11 := south 1]> (farms db0)) db0) 11 (south 1) eq_refl).
Defined.

(** X17.  Under the loaded Farm views the round trip holds only for a
    Farm of the creator's own: the created Farm has the owner the
    serializer validated, and the creator retrieves it under the returned
    key when that owner is the creator, and gets 404 when it is not. *)
Theorem X17_loaded_create_then_retrieve
    (request : Request) (serializer : option validated_data) (db db' : DB)
    (pk : Z) (F : Farm) :
  generics.create Second.FarmListCreateView.cls request serializer db
    = (HTTP_201_CREATED (pk, F), db') →
  (∃ vd, serializer = Some vd ∧ vd_parent vd = Some (owner_id F)) ∧
  generics.retrieve Second.FarmDetailView.cls (with_kwarg "pk" pk request) db'
    = if bool_decide (owner_id F = user_pk (user request))
      then (HTTP_200_OK (pk, F), db')
      else (HTTP_404_NOT_FOUND, db').
Proof.
  intros Hc. apply create_created in Hc as (vd & row & -> & Hb & _ & [= -> ->] & Hdb).
  assert (farms db' !! next_pk (farms db) = Some row) as HF.
  { subst db'. simpl. apply lookup_insert_eq. }
  clear Hdb. split.
  - exists vd. split; [done|].
    unfold generics.resolved_perform_create in Hb. simpl in Hb.
    destruct (vd_parent vd); [|discriminate]. by injection Hb as <-.
  - unfold generics.retrieve. simpl generics.check_permissions. cbv iota.
    rewrite (get_object_resolves Second.FarmDetailView.cls _ _ (next_pk (farms db))
               (λ _, eq_refl)); [|simpl; apply lookup_insert_eq].
    simpl generics.get_queryset.
    case_bool_decide as Ho.
    + assert (Second.FarmDetailView.get_queryset
                (with_kwarg "pk" (next_pk (farms db)) request) db'
                !! next_pk (farms db) = Some row) as ->; [|done].
      by apply Second_detail_scope.
    + assert (Second.FarmDetailView.get_queryset
                (with_kwarg "pk" (next_pk (farms db)) request) db'
                !! next_pk (farms db) = None) as ->; [|done].
      apply eq_None_not_Some. intros [F' Hq].
      apply Second_detail_scope in Hq as [HF' Ho']. simpl in Ho'. congruence.
Qed.

Lemma X17_witness :
  generics.create Second.FarmListCreateView.cls user_posts_farm
      (Some {| vd_parent := Some 2; vd_fields := "south" |}) db0
    = (HTTP_201_CREATED (11, south 2), store (<[11 := south 2]> (farms db0)) db0) ∧
  generics.retrieve Second.FarmDetailView.cls (with_kwarg "pk" 11 user_posts_farm)
      (store (<[11 := south 2]> (farms db0)) db0)
    = (HTTP_404_NOT_FOUND, store (<[11 := south 2]> (farms db0)) db0).
Proof.
  split; [reflexivity|].
  exact (proj2 (X17_loaded_create_then_retrieve user_posts_farm
           (Some {| vd_parent := Some 2; vd_fields := "south" |}) db0
           (store (<[11 := south 2]> (farms db0)) db0) 11 (south 2) eq_refl)).
Defined.

(** What a destroy that answered 204, and an update that answered 200,
    did. *)
Section detail_writes.

Context {Row : Type} `{!Model Row} (view : generics.GenericAPIView Row).

Lemma destroy_deleted (request : Request) (db db' : DB) :
  generics.destroy view request db = (HTTP_204_NO_CONTENT, db') →
  ∃ pk row,
    kwargs request !! "pk" = Some pk ∧
    generics.get_queryset view request db !! pk = Some row ∧
    db' = instance_delete (Row := Row) pk db.
Proof.
  unfold generics.destroy, generics.get_object.
  destruct (generics.check_permissions view request); [|discriminate].
  destruct (kwargs request !! "pk") as [pk|] eqn:Hpk; [|discriminate].
  destruct (generics.get_queryset view request db !! pk) as [row|] eqn:Hq;
    [|discriminate].
  destruct (generics.check_object_permissions view request (pk, row));
    [|discriminate].
  intros [= <-]. by exists pk, row.
Qed.

Lemma update_updated (request : Request) (serializer : option validated_data)
    (db db' : DB) (obj : instance Row) :
  generics.update view request serializer db = (HTTP_200_OK obj, db') →
  ∃ pk row vd,
    kwargs request !! "pk" = Some pk ∧
    generics.get_queryset view request db !! pk = Some row ∧
    serializer = Some vd ∧
    obj = (pk, assign vd row) ∧
    db' = store (<[pk := assign vd row]> (objects db)) db.
Proof.
  unfold generics.update, generics.get_object.
  destruct (generics.check_permissions view request); [|discriminate].
  destruct (kwargs request !! "pk") as [pk|] eqn:Hpk; [|discriminate].
  destruct (generics.get_queryset view request db !! pk) as [row|] eqn:Hq;
    [|discriminate].
  destruct (generics.check_object_permissions view request (pk, row));
    [|discriminate].
  destruct serializer as [vd|]; [|discriminate].
  destruct (parent_exists db (assign vd row)); [|discriminate].
  intros [= <- <-]. by exists pk, row, vd.
Qed.

End detail_writes.

(** X18.  On the loaded detail views a delete that answers 204 deleted
    a row of the caller's own, and the row is gone for everyone: the row
    under the key was a Farm of the caller, a Motor of a Farm of the
    caller, a Valve of a Motor of a Farm of the caller, and afterwards
    every caller's retrieve under the key answers 404. *)
Theorem X18_loaded_destroy_own_row_only (request : Request) (db : DB) (pk : Z) :
  kwargs request !! "pk" = Some pk →
  (∀ db',
     generics.destroy Second.FarmDetailView.cls request db
       = (HTTP_204_NO_CONTENT, db') →
     (∃ F, farms db !! pk = Some F ∧ owner_id F = user_pk (user request)) ∧
     farms db' !! pk = None ∧
     ∀ request', kwargs request' !! "pk" = Some pk →
       generics.retrieve Second.FarmDetailView.cls request' db'
         = (HTTP_404_NOT_FOUND, db')) ∧
  (∀ db',
     generics.destroy MotorDetailView.cls request db = (HTTP_204_NO_CONTENT, db') →
     (∃ M F, motors db !! pk = Some M ∧ farms db !! farm_id M = Some F ∧
             owner_id F = user_pk (user request)) ∧
     motors db' !! pk = None ∧
     ∀ request', kwargs request' !! "pk" = Some pk →
       generics.retrieve MotorDetailView.cls request' db'
         = (HTTP_404_NOT_FOUND, db')) ∧
  (∀ db',
     generics.destroy ValveDetailView.cls request db = (HTTP_204_NO_CONTENT, db') →
     (∃ V M F, valves db !! pk = Some V ∧ motors db !! motor_id V = Some M ∧
               farms db !! farm_id M = Some F ∧
               owner_id F = user_pk (user request)) ∧
     valves db' !! pk = None ∧
     ∀ request', kwargs request' !! "pk" = Some pk →
       generics.retrieve ValveDetailView.cls request' db'
         = (HTTP_404_NOT_FOUND, db')).
Proof.
  intros Hpk. repeat apply conj; intros db' Hd;
    apply destroy_deleted in Hd as (pk' & row & Hpk' & Hq & ->);
    assert (pk' = pk) as -> by congruence.
  - apply Second_detail_scope in Hq as [HF Ho].
    assert (farms (instance_delete (Row := Farm) pk db) !! pk = None) as Hgone
      by (simpl; apply lookup_delete_eq).
    repeat apply conj; [by exists row|done|].
    intros request' Hpk''.
    refine (proj1 (detail_outside Second.FarmDetailView.cls (λ _, eq_refl)
                     request' _ pk Hpk'' _ None)).
    apply eq_None_not_Some. intros [F' Hq'].
    apply Second_detail_scope in Hq' as [HF' _]. congruence.
  - apply Motor_scope in Hq as (HM & _ & F & HF & Ho).
    assert (motors (instance_delete (Row := Motor) pk db) !! pk = None) as Hgone
      by (simpl; apply lookup_delete_eq).
    repeat apply conj; [by exists row, F|done|].
    intros request' Hpk''.
    refine (proj1 (detail_outside MotorDetailView.cls (λ _, eq_refl)
                     request' _ pk Hpk'' _ None)).
    apply eq_None_not_Some. intros [M' Hq'].
    apply Motor_scope in Hq' as [HM' _]. congruence.
  - apply Valve_scope in Hq as (HV & _ & M & F & HM & HF & Ho).
    assert (valves (instance_delete (Row := Valve) pk db) !! pk = None) as Hgone
      by (simpl; apply lookup_delete_eq).
    repeat apply conj; [by exists row, M, F|done|].
    intros request' Hpk''.
    refine (proj1 (detail_outside ValveDetailView.cls (λ _, eq_refl)
                     request' _ pk Hpk'' _ None)).
    apply eq_None_not_Some. intros [V' Hq'].
    apply Valve_scope in Hq' as [HV' _]. congruence.
Qed.

Lemma X18_witness :
  kwargs user_1_gets_motor_21 !! "pk" = Some 21 ∧
  generics.destroy MotorDetailView.cls user_1_gets_motor_21 db1
    = (HTTP_204_NO_CONTENT, Motor_delete 21 db1) ∧
  motors (Motor_delete 21 db1) !! 21 = None.
Proof.
  split; [reflexivity|]. split; [reflexivity|].
  destruct (X18_loaded_destroy_own_row_only user_1_gets_motor_21 db1 21 eq_refl)
    as (_ & Hmotor & _).
  exact (proj1 (proj2 (Hmotor (Motor_delete 21 db1) eq_refl))).
Defined.

(** X19.  On the loaded detail views an update that answers 200 wrote
    one row, a row of the caller's own: the answer carries the key of the
    path, the row under it was in the caller's queryset, and the store
    afterwards is the store before with that one row replaced. *)
Theorem X19_loaded_update_own_row_only
    (request : Request) (serializer : option validated_data) (db : DB) (pk : Z) :
  kwargs request !! "pk" = Some pk →
  (∀ obj db',
     generics.update Second.FarmDetailView.cls request serializer db
       = (HTTP_200_OK obj, db') →
     obj.1 = pk ∧
     (∃ F, farms db !! pk = Some F ∧ owner_id F = user_pk (user request)) ∧
     db' = {| auth_user := auth_user db; farms := <[pk := obj.2]> (farms db);
              motors := motors db; valves := valves db |}) ∧
  (∀ obj db',
     generics.update MotorDetailView.cls request serializer db
       = (HTTP_200_OK obj, db') →
     obj.1 = pk ∧
     (∃ M F, motors db !! pk = Some M ∧ farms db !! farm_id M = Some F ∧
             owner_id F = user_pk (user request)) ∧
     db' = {| auth_user := auth_user db; farms := farms db;
              motors := <[pk := obj.2]> (motors db); valves := valves db |}) ∧
  (∀ obj db',
     generics.update ValveDetailView.cls request serializer db
       = (HTTP_200_OK obj, db') →
     obj.1 = pk ∧
     (∃ V M F, valves db !! pk = Some V ∧ motors db !! motor_id V = Some M ∧
               farms db !! farm_id M = Some F ∧
               owner_id F = user_pk (user request)) ∧
     db' = {| auth_user := auth_user db; farms := farms db;
              motors := motors db; valves := <[pk := obj.2]> (valves db) |}).
Proof.
  intros Hpk. repeat apply conj; intros obj db' Hu;
    apply update_updated in Hu as (pk' & row & vd & Hpk' & Hq & _ & -> & ->);
    assert (pk' = pk) as -> by congruence.
  - apply Second_detail_scope in Hq as [HF Ho]. repeat apply conj; [done| |done].
    by exists row.
  - apply Motor_scope in Hq as (HM & _ & F & HF & Ho).
    repeat apply conj; [done| |done]. by exists row, F.
  - apply Valve_scope in Hq as (HV & _ & M & F & HM & HF & Ho).
    repeat apply conj; [done| |done]. by exists row, M, F.
Qed.

Lemma X19_witness :
  kwargs user_1_gets_farm_11 !! "pk" = Some 11 ∧
  generics.update Second.FarmDetailView.cls user_1_gets_farm_11
      (Some {| vd_parent := None; vd_fields := "west" |}) db1
    = (HTTP_200_OK (11, {| owner_id := 1; farm_fields := "west" |}),
       store (<[11 := {| owner_id := 1; farm_fields := "west" |}]> (farms db1)) db1) ∧
  ∃ F, farms db1 !! 11 = Some F ∧ owner_id F = user_pk (user user_1_gets_farm_11).
Proof.
  split; [reflexivity|]. split; [reflexivity|].
  destruct (X19_loaded_update_own_row_only user_1_gets_farm_11
              (Some {| vd_parent := None; vd_fields := "west" |}) db1 11 eq_refl)
    as (Hfarm & _).
  exact (proj1 (proj2 (Hfarm _ _ eq_refl))).
Defined.

(** A name the namespace binds was bound by a statement of the module. *)
Lemma foldl_exec_lookup (l : list (string * binding)) (ns : gmap string binding)
    (name : string) (b : binding) :
  foldl exec ns l !! name = Some b → (name, b) ∈ l ∨ ns !! name = Some b.
Proof.
  revert ns. induction l as [|[n b'] l IH]; intros ns H; simpl in H; [by right|].
  apply IH in H as [H|H]; [left; by right|].
  unfold exec in H. simpl in H.
  destruct (decide (n = name)) as [->|Hne].
  - rewrite lookup_insert_eq in H. injection H as ->. left. by left.
  - rewrite lookup_insert_ne in H by done. by right.
Qed.

(** X20.  No view the loaded module binds to a name consults the
    caller's role: whatever the name, a view bound to it does not
    override [perform_create], so a create calls [serializer.save()]
    bare, and its object-level permissions allow every caller on every
    object. *)
Theorem X20_loaded_views_consult_no_role (name : string) :
  match getattr name with
  | Some (Farm_view v) =>
      generics.perform_create v = None ∧
      ∀ request obj, generics.check_object_permissions v request obj = true
  | Some (Motor_view v) =>
      generics.perform_create v = None ∧
      ∀ request obj, generics.check_object_permissions v request obj = true
  | Some (Valve_view v) =>
      generics.perform_create v = None ∧
      ∀ request obj, generics.check_object_permissions v request obj = true
  | _ => True
  end.
Proof.
  destruct (getattr name) as [b|] eqn:H; [|done].
  pose proof H as Hin. unfold getattr, namespace in Hin.
  apply foldl_exec_lookup in Hin as [Hin|Hin]; [|by rewrite lookup_empty in Hin].
  unfold views_py in Hin.
  repeat (apply elem_of_cons in Hin as [Hin|Hin];
          [injection Hin as -> ->; try done; try (vm_compute in H; discriminate H)|]).
  by apply elem_of_nil in Hin.
Qed.
